(** * Dot's soul: perception routing and mental processes

    A shallow embedding of [soul/soul.ts]: the four mental processes
    registered with [dot.on] and the perception handler registered with
    [dot.onPerception].  The handlers are [async] functions that call the
    methods of the [soul] object they receive ([speak], [think], [remember],
    [observe]); those methods belong to the Soul Engine, so a handler is
    embedded as a tree of awaited calls and is run against an arbitrary
    implementation of the four methods, with every call recorded in a
    trace. *)

From stdpp Require Import base strings list gmap.

Set Default Proof Using "Type".

(** ** Data model *)

(** [new Soul({ name, description, blueprint })]: the blueprint is prompt
    text that no handler reads, so only the two short fields are kept. *)
Record Identity := {
  name : string;
  description : string
}.

Definition dot : Identity := {|
  name := "Dot";
  description := "A curious and friendly ladybug digital being"
|}.

(** The [perception] argument of a handler: [const { content, type } = perception]. *)
Record Perception := {
  content : string;
  type : string
}.

(** Modelled from the spec: the [ActionResult] type is not declared in the
    source, where a handler returns whatever the [soul] method it called
    returns.  The variant records which method produced the text. *)
Inductive ActionResult :=
| Spoken (text : string)
| Thought (text : string)
| Observed (text : string).

(** Modelled from the spec: the error taxonomy.  In the source an error is
    the value a rejected promise carries. *)
Inductive SoulError :=
| ConfigError
| UnknownModeError
| StorageError
| CapabilityError.

(** How a promise settles. *)
Inductive Outcome (A : Type) :=
| Fulfilled (a : A)
| Rejected (e : SoulError).
Arguments Fulfilled {A} a.
Arguments Rejected {A} e.

#[global] Instance outcome_fmap : FMap Outcome := λ A B f o,
  match o with
  | Fulfilled a => Fulfilled (f a)
  | Rejected e => Rejected e
  end.

Definition fulfilled {A} (o : Outcome A) : bool :=
  match o with Fulfilled _ => true | Rejected _ => false end.

(** ** The [soul] object seen from a handler *)

(** The four methods a handler calls on [soul]. *)
Inductive Capability := Speak | Think | Remember | Observe.

#[global] Instance capability_eq_dec : EqDecision Capability.
Proof. solve_decision. Defined.

(** What a call resolves to: text, except for [remember], whose result the
    source discards. *)
Definition answer (c : Capability) : Type :=
  match c with
  | Remember => unit
  | _ => string
  end.

(** The body of an [async] function: it returns, or it calls a method of
    [soul] and continues with what the promise resolves to.  A rejected
    promise never reaches the continuation (see [run]). *)
Inductive Async (R : Type) : Type :=
| Return (r : R)
| Await (c : Capability) (arg : string) (k : answer c → Async R).
Arguments Return {R} r.
Arguments Await {R} c arg k.

#[global] Instance async_ret : MRet Async := @Return.

#[global] Instance async_bind : MBind Async := λ A B f,
  fix go (m : Async A) : Async B :=
    match m with
    | Return r => f r
    | Await c arg k => Await c arg (λ x, go (k x))
    end.

(** Modelled from the spec: what each method hands back to the handler.
    [speak] returns the backend's output as [Spoken], [think] as [Thought],
    [observe] tags its input as [Observed]; [remember] appends to the
    Memory Store and resolves to nothing. *)
Definition soul_speak (text : string) : Async ActionResult :=
  Await Speak text (λ out, Return (Spoken out)).

Definition soul_think (text : string) : Async ActionResult :=
  Await Think text (λ out, Return (Thought out)).

Definition soul_observe (text : string) : Async ActionResult :=
  Await Observe text (λ out, Return (Observed out)).

Definition soul_remember (text : string) : Async unit :=
  Await Remember text (λ _, Return ()).

(** ** Mental processes: [dot.on(mode, handler)] *)

Abbreviation Behavior := (Perception → Async ActionResult).

Definition idle : Behavior := λ perception,
  soul_think "I wonder what interesting things I might discover today...".

Definition curious : Behavior := λ perception,
  soul_think "This is fascinating! I want to understand more...".

Definition empathetic : Behavior := λ perception,
  soul_think "I sense something meaningful here. Let me be present...".

Definition playful : Behavior := λ perception,
  soul_think "*wiggles antennae happily* This is fun!".

(** Modelled from the spec: [on] is a method of the engine's [Soul] class;
    it files the handler under its mode label. *)
Definition on (mode : string) (handler : Behavior)
    (processes : gmap string Behavior) : gmap string Behavior :=
  <[mode := handler]> processes.

(** The four registrations of the source, in source order. *)
Definition dot_processes : gmap string Behavior :=
  on "playful" playful
    (on "empathetic" empathetic
      (on "curious" curious
        (on "idle" idle ∅))).

Definition built_in_modes : list string :=
  ["idle"; "curious"; "empathetic"; "playful"].

(** Modelled from the spec: the Mental-Process Selector's [select], which
    the source leaves to the engine: look the mode up among the registered
    processes, fail with [UnknownModeError] when it is absent. *)
Definition select (mode : string) : SoulError + Behavior :=
  match dot_processes !! mode with
  | Some behavior => inr behavior
  | None => inl UnknownModeError
  end.

(** Modelled from the spec: the caller of [select], which falls back to the
    [idle] behavior on [UnknownModeError]. *)
Definition select_or_idle (mode : string) : Behavior :=
  match select mode with
  | inr behavior => behavior
  | inl _ => idle
  end.

(** ** The perception handler: [dot.onPerception] *)

Definition acknowledgment : string := "I'll remember this...".

(** The [switch (type)] compares with [===], first match wins. *)
Definition onPerception (perception : Perception) : Async ActionResult :=
  let content := content perception in
  let type := type perception in
  if String.eqb type "user_message" then
    soul_speak content
  else if String.eqb type "self_reflection" then
    soul_think content
  else if String.eqb type "experience" then
    soul_remember content ≫= λ _,
    soul_think acknowledgment
  else
    soul_observe content.

(** ** Running a handler against an implementation of [soul] *)

(** An implementation of the four methods over a host state [W]: each call
    may change the state and settles as fulfilled or rejected. *)
Record Soul (W : Type) := {
  speak : string → W → W * Outcome string;
  think : string → W → W * Outcome string;
  remember : string → W → W * Outcome unit;
  observe : string → W → W * Outcome string
}.
Arguments speak {W} _ _ _.
Arguments think {W} _ _ _.
Arguments remember {W} _ _ _.
Arguments observe {W} _ _ _.

Definition perform {W} (soul : Soul W) (c : Capability) :
    string → W → W * Outcome (answer c) :=
  match c with
  | Speak => speak soul
  | Think => think soul
  | Remember => remember soul
  | Observe => observe soul
  end.

(** What an observer of the [soul] object sees: a method being called with
    its argument, and later its promise settling. *)
Inductive Event :=
| Invoked (c : Capability) (arg : string)
| Settled (c : Capability) (ok : bool).

#[global] Instance event_eq_dec : EqDecision Event.
Proof. solve_decision. Defined.

(** [await]: the continuation runs only once the promise is fulfilled; a
    rejection ends the handler, whose own promise rejects with the same
    error.  [return soul.m(...)] adopts the returned promise likewise. *)
Fixpoint run {W R} (soul : Soul W) (m : Async R) (w : W) :
    W * list Event * Outcome R :=
  match m with
  | Return r => (w, [], Fulfilled r)
  | Await c arg k =>
      let '(w1, o) := perform soul c arg w in
      let seen := [Invoked c arg; Settled c (fulfilled o)] in
      match o with
      | Fulfilled x =>
          let '(w2, trace, result) := run soul (k x) w1 in
          (w2, seen ++ trace, result)
      | Rejected e => (w1, seen, Rejected e)
      end
  end.

(** The arguments method [c] was called with, in call order. *)
Fixpoint invocations (c : Capability) (trace : list Event) : list string :=
  match trace with
  | [] => []
  | Invoked c' arg :: rest =>
      if decide (c' = c) then arg :: invocations c rest
      else invocations c rest
  | Settled _ _ :: rest => invocations c rest
  end.

(** Every call of [later] is preceded by a fulfilled call of [earlier]. *)
Definition fulfilled_before (earlier later : Capability)
    (trace : list Event) : Prop :=
  ∀ j arg, trace !! j = Some (Invoked later arg) →
    ∃ i, i < j ∧ trace !! i = Some (Settled earlier true).

(** ** A Memory Store behind [soul.remember] *)

(** Modelled from the spec: a [MemoryRecord] carries the content, the
    instant of the append and the owning identity. *)
Record MemoryRecord := {
  record_content : string;
  timestamp : nat;
  ownerIdentity : Identity
}.

(** Modelled from the spec: the Memory Store is an append-only log; the
    host supplies the clock, and a store that cannot write fails every
    append with [StorageError]. *)
Record Store := {
  log : list MemoryRecord;
  now : nat;
  writable : bool
}.

Definition fresh (t : nat) : Store :=
  {| log := []; now := t; writable := true |}.

Definition full (t : nat) : Store :=
  {| log := []; now := t; writable := false |}.

Definition at_time (t : nat) (st : Store) : Store :=
  {| log := log st; now := t; writable := writable st |}.

Definition append (r : MemoryRecord) (st : Store) : Store * Outcome unit :=
  if writable st then
    ({| log := log st ++ [r]; now := now st; writable := writable st |},
     Fulfilled ())
  else (st, Rejected StorageError).

(** A [soul] whose [remember] appends to the store and whose generation
    backend is the stateless function [backend]. *)
Definition store_soul (backend : Capability → string → Outcome string) :
    Soul Store := {|
  speak text st := (st, backend Speak text);
  think text st := (st, backend Think text);
  remember text st :=
    append {| record_content := text; timestamp := now st;
              ownerIdentity := dot |} st;
  observe text st := (st, backend Observe text)
|}.

(** The stub backend of the spec's example: [speak] answers its input
    prefixed with ["Dot: "]; [think] and [observe] echo. *)
Definition stub_backend (c : Capability) (text : string) : Outcome string :=
  match c with
  | Speak => Fulfilled ("Dot: " +:+ text)
  | _ => Fulfilled text
  end.

Definition stub_soul : Soul Store := store_soul stub_backend.

(** [processPerception] called twice on the same store, the host's clock
    reading [t1] at the first call and [t2] at the second. *)
Definition process_twice (soul : Soul Store) (perception : Perception)
    (t1 t2 : nat) : Store :=
  let '(st1, _, _) := run soul (onPerception perception) (fresh t1) in
  let '(st2, _, _) := run soul (onPerception perception) (at_time t2 st1) in
  st2.

(** ** Reading a trace *)

(** Everything the handler passed to [soul], in call order. *)
Fixpoint arguments (trace : list Event) : list string :=
  match trace with
  | [] => []
  | Invoked _ arg :: rest => arg :: arguments rest
  | Settled _ _ :: rest => arguments rest
  end.

(** The error a rejected promise carries. *)
Definition error_of {A} (o : Outcome A) : option SoulError :=
  match o with
  | Fulfilled _ => None
  | Rejected e => Some e
  end.

(** How many calls went to the generation backend: [speak], [think] and
    [observe], but not [remember]. *)
Definition generation_calls (trace : list Event) : nat :=
  length (invocations Speak trace) + length (invocations Think trace)
  + length (invocations Observe trace).

(** ** Sample inputs *)

Definition hello : Perception :=
  {| content := "hello"; type := "user_message" |}.

Definition musing : Perception :=
  {| content := "why do I like gardens?"; type := "self_reflection" |}.

Definition new_friend : Perception :=
  {| content := "met a new friend"; type := "experience" |}.

Definition weather : Perception :=
  {| content := "rain"; type := "weather" |}.

Definition friend_record (t : nat) : MemoryRecord :=
  {| record_content := "met a new friend"; timestamp := t;
     ownerIdentity := dot |}.

Definition friend_remembered (t : nat) : Store :=
  {| log := [friend_record t]; now := t; writable := true |}.

(** ** Checks on concrete inputs *)

Example hello_run :
  run stub_soul (onPerception hello) (fresh 0)
  = (fresh 0, [Invoked Speak "hello"; Settled Speak true],
     Fulfilled (Spoken "Dot: hello")).
Proof. reflexivity. Qed.

Example musing_run :
  run stub_soul (onPerception musing) (fresh 0)
  = (fresh 0, [Invoked Think "why do I like gardens?"; Settled Think true],
     Fulfilled (Thought "why do I like gardens?")).
Proof. reflexivity. Qed.

Example new_friend_run :
  run stub_soul (onPerception new_friend) (fresh 7)
  = (friend_remembered 7,
     [Invoked Remember "met a new friend"; Settled Remember true;
      Invoked Think "I'll remember this..."; Settled Think true],
     Fulfilled (Thought "I'll remember this...")).
Proof. reflexivity. Qed.

Example new_friend_full_store_run :
  run stub_soul (onPerception new_friend) (full 7)
  = (full 7, [Invoked Remember "met a new friend"; Settled Remember false],
     Rejected StorageError).
Proof. reflexivity. Qed.

Example weather_run :
  run stub_soul (onPerception weather) (fresh 0)
  = (fresh 0, [Invoked Observe "rain"; Settled Observe true],
     Fulfilled (Observed "rain")).
Proof. reflexivity. Qed.

(** A type tag is matched whole and with its case: a near miss is unknown. *)
Example near_miss_run :
  run stub_soul
      (onPerception {| content := "hi"; type := "User_message" |}) (fresh 0)
  = (fresh 0, [Invoked Observe "hi"; Settled Observe true],
     Fulfilled (Observed "hi")).
Proof. reflexivity. Qed.

Example process_twice_same_instant :
  log (process_twice stub_soul new_friend 3 3)
  = [friend_record 3; friend_record 3].
Proof. reflexivity. Qed.

Example select_playful : select "playful" = inr playful.
Proof. reflexivity. Qed.

Example select_sleepy : select "sleepy" = inl UnknownModeError.
Proof. reflexivity. Qed.

(** * Properties *)

(** ** The switch: which branch a type tag selects *)

Lemma route_user_message (p : Perception) :
  type p = "user_message" → onPerception p = soul_speak (content p).
Proof. unfold onPerception. by intros ->. Qed.

Lemma route_self_reflection (p : Perception) :
  type p = "self_reflection" → onPerception p = soul_think (content p).
Proof. unfold onPerception. by intros ->. Qed.

Lemma route_experience (p : Perception) :
  type p = "experience" →
  onPerception p = soul_remember (content p) ≫= λ _, soul_think acknowledgment.
Proof. unfold onPerception. by intros ->. Qed.

Lemma route_default (p : Perception) :
  type p ∉ ["user_message"; "self_reflection"; "experience"] →
  onPerception p = soul_observe (content p).
Proof.
  intros Hother. unfold onPerception.
  repeat match goal with
  | |- context [String.eqb ?s ?t] =>
      destruct (String.eqb_spec s t) as [Heq|_];
      [exfalso; apply Hother; rewrite Heq; set_solver|]
  end.
  reflexivity.
Qed.

(** ** One awaited call *)

Section Calls.
Context {W : Type} (soul : Soul W).

Lemma run_speak (text : string) (w w1 : W) (o : Outcome string) :
  speak soul text w = (w1, o) →
  run soul (soul_speak text) w
  = (w1, [Invoked Speak text; Settled Speak (fulfilled o)], Spoken <$> o).
Proof. intros Hcall. simpl. rewrite Hcall. by destruct o. Qed.

Lemma run_think (text : string) (w w1 : W) (o : Outcome string) :
  think soul text w = (w1, o) →
  run soul (soul_think text) w
  = (w1, [Invoked Think text; Settled Think (fulfilled o)], Thought <$> o).
Proof. intros Hcall. simpl. rewrite Hcall. by destruct o. Qed.

Lemma run_observe (text : string) (w w1 : W) (o : Outcome string) :
  observe soul text w = (w1, o) →
  run soul (soul_observe text) w
  = (w1, [Invoked Observe text; Settled Observe (fulfilled o)], Observed <$> o).
Proof. intros Hcall. simpl. rewrite Hcall. by destruct o. Qed.

(** [await soul.remember(text); rest]: [rest] runs in the state the append
    left, after the two events of the append. *)
Lemma run_remember_then {R} (text : string) (rest : Async R) (w w1 : W) :
  remember soul text w = (w1, Fulfilled ()) →
  run soul (soul_remember text ≫= λ _, rest) w
  = (let '(w2, trace, result) := run soul rest w1 in
     (w2, [Invoked Remember text; Settled Remember true] ++ trace, result)).
Proof. intros Hcall. simpl. by rewrite Hcall. Qed.

(** A rejected append ends the handler before [rest]. *)
Lemma run_remember_rejected {R} (text : string) (rest : Async R) (w w1 : W)
    (e : SoulError) :
  remember soul text w = (w1, Rejected e) →
  run soul (soul_remember text ≫= λ _, rest) w
  = (w1, [Invoked Remember text; Settled Remember false], Rejected e).
Proof. intros Hcall. simpl. by rewrite Hcall. Qed.

(** The whole run of the [experience] branch when the append succeeds. *)
Lemma run_experience (p : Perception) (w w1 w2 : W) (o : Outcome string) :
  type p = "experience" →
  remember soul (content p) w = (w1, Fulfilled ()) →
  think soul acknowledgment w1 = (w2, o) →
  run soul (onPerception p) w
  = (w2,
     [Invoked Remember (content p); Settled Remember true;
      Invoked Think acknowledgment; Settled Think (fulfilled o)],
     Thought <$> o).
Proof.
  intros Htype Happend Hthink.
  rewrite (route_experience p Htype), (run_remember_then _ _ _ _ Happend).
  by rewrite (run_think _ _ _ _ Hthink).
Qed.

End Calls.

(** ** The perception handler *)

Section Router.
Context {W : Type} (soul : Soul W).

(** C1. An [experience] perception whose append succeeds: [remember] is
    called exactly once, with the content; every call of [think] comes
    after the append has been fulfilled; and the handler's result is the
    outcome of [think] as a [Thought]: [Thought out] when [think] answers
    [out]. *)
Theorem experience_appends_then_thinks (p : Perception) (w w1 w2 : W)
    (o : Outcome string) :
  type p = "experience" →
  remember soul (content p) w = (w1, Fulfilled ()) →
  think soul acknowledgment w1 = (w2, o) →
  ∃ trace result,
    run soul (onPerception p) w = (w2, trace, result)
    ∧ invocations Remember trace = [content p]
    ∧ length (invocations Remember trace) = 1
    ∧ length (invocations Think trace) = 1
    ∧ fulfilled_before Remember Think trace
    ∧ result = Thought <$> o
    ∧ (∀ out, o = Fulfilled out → result = Fulfilled (Thought out)).
Proof.
  intros Htype Happend Hthink. eexists _, _. split.
  { exact (run_experience soul p w w1 w2 o Htype Happend Hthink). }
  repeat split.
  - intros j arg Hj. exists 1. split; [|done].
    destruct j as [|[|j]]; [done|done|lia].
  - by intros out ->.
Qed.

(** C2. An [experience] perception whose append is rejected: [think] is
    never called, nothing but the append is attempted, and the handler
    rejects with the store's own error. *)
Theorem experience_append_rejected (p : Perception) (w w1 : W)
    (e : SoulError) :
  type p = "experience" →
  remember soul (content p) w = (w1, Rejected e) →
  ∃ trace,
    run soul (onPerception p) w = (w1, trace, Rejected e)
    ∧ invocations Think trace = []
    ∧ trace = [Invoked Remember (content p); Settled Remember false].
Proof.
  intros Htype Happend. eexists. split.
  { by rewrite (route_experience p Htype),
    (run_remember_rejected soul _ _ _ _ _ Happend). }
  done.
Qed.

(** C3. A [user_message] perception: [speak] is called exactly once, with
    the content; the handler's result is the outcome of [speak] as
    [Spoken], carrying the output [speak] answered; [remember] is never
    called. *)
Theorem user_message_speaks_once (p : Perception) (w w1 : W)
    (o : Outcome string) :
  type p = "user_message" →
  speak soul (content p) w = (w1, o) →
  ∃ trace result,
    run soul (onPerception p) w = (w1, trace, result)
    ∧ invocations Speak trace = [content p]
    ∧ length (invocations Speak trace) = 1
    ∧ invocations Remember trace = []
    ∧ result = Spoken <$> o
    ∧ (∀ out, o = Fulfilled out → result = Fulfilled (Spoken out)).
Proof.
  intros Htype Hspeak. eexists _, _. split.
  { by rewrite (route_user_message p Htype), (run_speak soul _ _ _ _ Hspeak). }
  repeat split. by intros out ->.
Qed.

(** C4. A perception whose type is none of the three known tags: the switch
    falls to its default, [observe] is the only call, neither [speak] nor
    [think] is called, and the handler's result is the outcome of
    [observe] as [Observed]; the handler adds no failure of its own, so it
    rejects only with an error [observe] itself raised. *)
Theorem unknown_type_observes (p : Perception) (w w1 : W)
    (o : Outcome string) :
  type p ∉ ["user_message"; "self_reflection"; "experience"] →
  observe soul (content p) w = (w1, o) →
  ∃ trace result,
    run soul (onPerception p) w = (w1, trace, result)
    ∧ result = Observed <$> o
    ∧ invocations Speak trace = []
    ∧ invocations Think trace = []
    ∧ invocations Observe trace = [content p]
    ∧ (∀ out, o = Fulfilled out → result = Fulfilled (Observed out))
    ∧ (∀ e, result = Rejected e → o = Rejected e).
Proof.
  intros Htype Hobserve. eexists _, _. split.
  { by rewrite (route_default p Htype), (run_observe soul _ _ _ _ Hobserve). }
  repeat split.
  - by intros out ->.
  - intros e. by destruct o; intros [= ->].
Qed.

(** C5. A [self_reflection] perception: [think] is called on the content,
    the handler's result is the outcome of [think] as a [Thought], and it
    is never a [Spoken]; [speak] is not called at all. *)
Theorem self_reflection_thinks (p : Perception) (w w1 : W)
    (o : Outcome string) :
  type p = "self_reflection" →
  think soul (content p) w = (w1, o) →
  ∃ trace result,
    run soul (onPerception p) w = (w1, trace, result)
    ∧ result = Thought <$> o
    ∧ invocations Think trace = [content p]
    ∧ invocations Speak trace = []
    ∧ (∀ out, o = Fulfilled out → result = Fulfilled (Thought out))
    ∧ (∀ text, result ≠ Fulfilled (Spoken text)).
Proof.
  intros Htype Hthink. eexists _, _. split.
  { by rewrite (route_self_reflection p Htype), (run_think soul _ _ _ _ Hthink). }
  repeat split.
  - by intros out ->.
  - intros text. by destruct o.
Qed.

(** C9. On an [experience] perception whose append succeeds, [think] is
    called with the fixed string ["I'll remember this..."], whatever the
    content of the perception. *)
Theorem experience_acknowledgment_fixed (p : Perception) (w w1 : W) :
  type p = "experience" →
  remember soul (content p) w = (w1, Fulfilled ()) →
  invocations Think (run soul (onPerception p) w).1.2
  = ["I'll remember this..."].
Proof.
  intros Htype Happend.
  destruct (think soul acknowledgment w1) as [w2 o] eqn:Hthink.
  by rewrite (run_experience soul p w w1 w2 o).
Qed.

(** C8. With a [speak] that answers its input prefixed with ["Dot: "], the
    perception [{type: "user_message", content: "hello"}] yields
    [Spoken "Dot: hello"], by one call of [speak] on ["hello"] and no other
    call; and so for every content: [speak] is the only call, it receives
    the content unchanged, and its answer is what is returned. *)
Theorem hello_is_spoken (w : W) :
  (∀ text w', speak soul text w' = (w', Fulfilled ("Dot: " +:+ text))) →
  run soul (onPerception hello) w
  = (w, [Invoked Speak "hello"; Settled Speak true],
     Fulfilled (Spoken "Dot: hello"))
  ∧ ∀ text,
      run soul (onPerception {| content := text; type := "user_message" |}) w
      = (w, [Invoked Speak text; Settled Speak true],
         Fulfilled (Spoken ("Dot: " +:+ text))).
Proof.
  intros Hstub.
  assert (∀ text,
    run soul (onPerception {| content := text; type := "user_message" |}) w
    = (w, [Invoked Speak text; Settled Speak true],
       Fulfilled (Spoken ("Dot: " +:+ text)))) as Hall.
  { intros text. simpl. by rewrite Hstub. }
  split; [apply (Hall "hello")|apply Hall].
Qed.

End Router.

(** ** The Memory Store under repeated perceptions *)

(** C7. Processing the same [experience] perception twice, starting from a
    fresh store, leaves two records in the log, one per call, each with the
    perception's content; the second call does not check for the first
    record, even when the clock has not moved. *)
Theorem experience_twice_two_records
    (backend : Capability → string → Outcome string) (p : Perception)
    (t1 t2 : nat) :
  type p = "experience" →
  log (process_twice (store_soul backend) p t1 t2)
  = [ {| record_content := content p; timestamp := t1; ownerIdentity := dot |};
      {| record_content := content p; timestamp := t2; ownerIdentity := dot |} ]
  ∧ length (log (process_twice (store_soul backend) p t1 t2)) = 2.
Proof.
  intros Htype. unfold process_twice.
  rewrite (route_experience p Htype). simpl.
  destruct (backend Think acknowledgment); simpl;
    destruct (backend Think acknowledgment); done.
Qed.

(** ** Mental processes *)

Lemma select_unknown (mode : string) :
  mode ∉ built_in_modes → dot_processes !! mode = None.
Proof.
  intros Hout. unfold dot_processes, on.
  rewrite !lookup_insert_ne, lookup_empty; [done|..];
    intros <-; apply Hout; unfold built_in_modes; set_solver.
Qed.

(** C6. [select] answers with the registered behavior for each of [idle],
    [curious], [empathetic] and [playful], and fails with
    [UnknownModeError] for every other mode, where the caller's fallback
    yields the [idle] behavior. *)
Theorem select_total_with_idle_fallback :
  (∀ mode, mode ∈ built_in_modes →
     ∃ behavior, select mode = inr behavior
                 ∧ select_or_idle mode = behavior)
  ∧ select "idle" = inr idle
  ∧ select "curious" = inr curious
  ∧ select "empathetic" = inr empathetic
  ∧ select "playful" = inr playful
  ∧ (∀ mode, mode ∉ built_in_modes →
       select mode = inl UnknownModeError ∧ select_or_idle mode = idle).
Proof.
  split; [|repeat split].
  - intros mode Hin. unfold built_in_modes in Hin.
    repeat (apply elem_of_cons in Hin as [->|Hin]);
      [by eexists..|by apply elem_of_nil in Hin].
  - unfold select_or_idle, select. by rewrite (select_unknown mode).
  - unfold select_or_idle, select. by rewrite (select_unknown mode).
Qed.

(** A behavior that only calls [think] on a literal. *)
Lemma run_think_total {W} (soul : Soul W) (text : string) (w : W) :
  run soul (soul_think text) w
  = ((think soul text w).1,
     [Invoked Think text; Settled Think (fulfilled (think soul text w).2)],
     Thought <$> (think soul text w).2).
Proof. by apply run_think, surjective_pairing. Qed.

Ltac think_fixed behavior :=
  eexists behavior, _; split; [reflexivity|];
  intros W soul p1 p2 w; split; [reflexivity|];
  unfold behavior; rewrite run_think_total; split; reflexivity.

(** C10. Each built-in behavior ignores its perception: whatever two
    perceptions it is given, run against the same [soul] in the same state
    it makes the same calls and has the same result, and its one call of
    [think] carries a string fixed by the mode alone. *)
Theorem built_in_behaviors_ignore_perception (mode : string) :
  mode ∈ built_in_modes →
  ∃ (behavior : Behavior) (fixed : string),
    dot_processes !! mode = Some behavior
    ∧ ∀ (W : Type) (soul : Soul W) (p1 p2 : Perception) (w : W),
        run soul (behavior p1) w = run soul (behavior p2) w
        ∧ invocations Think (run soul (behavior p1) w).1.2 = [fixed]
        ∧ (run soul (behavior p1) w).2 = Thought <$> (think soul fixed w).2.
Proof.
  intros Hin. unfold built_in_modes in Hin.
  repeat (apply elem_of_cons in Hin as [->|Hin]);
    [..|by apply elem_of_nil in Hin].
  - by think_fixed idle.
  - by think_fixed curious.
  - by think_fixed empathetic.
  - by think_fixed playful.
Qed.

(** ** The theorems at the sample inputs *)

Lemma experience_appends_then_thinks_at_new_friend :
  ∃ trace result,
    run stub_soul (onPerception new_friend) (fresh 7)
    = (friend_remembered 7, trace, result)
    ∧ invocations Remember trace = [content new_friend]
    ∧ length (invocations Remember trace) = 1
    ∧ length (invocations Think trace) = 1
    ∧ fulfilled_before Remember Think trace
    ∧ result = Thought <$> Fulfilled acknowledgment
    ∧ (∀ out, Fulfilled acknowledgment = Fulfilled out →
         result = Fulfilled (Thought out)).
Proof.
  apply (experience_appends_then_thinks stub_soul new_friend (fresh 7)
           (friend_remembered 7)); reflexivity.
Defined.

Lemma experience_append_rejected_at_full_store :
  ∃ trace,
    run stub_soul (onPerception new_friend) (full 7)
    = (full 7, trace, Rejected StorageError)
    ∧ invocations Think trace = []
    ∧ trace = [Invoked Remember (content new_friend); Settled Remember false].
Proof.
  apply (experience_append_rejected stub_soul new_friend (full 7)); reflexivity.
Defined.

Lemma user_message_speaks_once_at_hello :
  ∃ trace result,
    run stub_soul (onPerception hello) (fresh 0) = (fresh 0, trace, result)
    ∧ invocations Speak trace = [content hello]
    ∧ length (invocations Speak trace) = 1
    ∧ invocations Remember trace = []
    ∧ result = Spoken <$> Fulfilled "Dot: hello"
    ∧ (∀ out, Fulfilled "Dot: hello" = Fulfilled out →
         result = Fulfilled (Spoken out)).
Proof.
  apply (user_message_speaks_once stub_soul hello (fresh 0)); reflexivity.
Defined.

Lemma unknown_type_observes_at_weather :
  ∃ trace result,
    run stub_soul (onPerception weather) (fresh 0) = (fresh 0, trace, result)
    ∧ result = Observed <$> Fulfilled "rain"
    ∧ invocations Speak trace = []
    ∧ invocations Think trace = []
    ∧ invocations Observe trace = [content weather]
    ∧ (∀ out, Fulfilled "rain" = Fulfilled out →
         result = Fulfilled (Observed out))
    ∧ (∀ e, result = Rejected e → Fulfilled "rain" = Rejected e).
Proof.
  apply (unknown_type_observes stub_soul weather (fresh 0));
    [compute_done | reflexivity].
Defined.

Lemma self_reflection_thinks_at_musing :
  ∃ trace result,
    run stub_soul (onPerception musing) (fresh 0) = (fresh 0, trace, result)
    ∧ result = Thought <$> Fulfilled (content musing)
    ∧ invocations Think trace = [content musing]
    ∧ invocations Speak trace = []
    ∧ (∀ out, Fulfilled (content musing) = Fulfilled out →
         result = Fulfilled (Thought out))
    ∧ (∀ text, result ≠ Fulfilled (Spoken text)).
Proof.
  apply (self_reflection_thinks stub_soul musing (fresh 0)); reflexivity.
Defined.

Lemma experience_acknowledgment_fixed_at_new_friend :
  invocations Think (run stub_soul (onPerception new_friend) (fresh 7)).1.2
  = ["I'll remember this..."].
Proof.
  apply (experience_acknowledgment_fixed stub_soul new_friend (fresh 7)
           (friend_remembered 7)); reflexivity.
Defined.

Lemma hello_is_spoken_at_stub :
  run stub_soul (onPerception hello) (fresh 0)
  = (fresh 0, [Invoked Speak "hello"; Settled Speak true],
     Fulfilled (Spoken "Dot: hello"))
  ∧ ∀ text,
      run stub_soul
          (onPerception {| content := text; type := "user_message" |})
          (fresh 0)
      = (fresh 0, [Invoked Speak text; Settled Speak true],
         Fulfilled (Spoken ("Dot: " +:+ text))).
Proof.
  apply (hello_is_spoken stub_soul (fresh 0)). intros text st. reflexivity.
Defined.

Lemma experience_twice_two_records_at_same_instant :
  log (process_twice (store_soul stub_backend) new_friend 3 3)
  = [ {| record_content := content new_friend; timestamp := 3;
         ownerIdentity := dot |};
      {| record_content := content new_friend; timestamp := 3;
         ownerIdentity := dot |} ]
  ∧ length (log (process_twice (store_soul stub_backend) new_friend 3 3)) = 2.
Proof.
  apply (experience_twice_two_records stub_backend new_friend 3 3).
  reflexivity.
Defined.

Lemma select_unknown_mode_at_sleepy :
  select "sleepy" = inl UnknownModeError ∧ select_or_idle "sleepy" = idle.
Proof.
  apply (proj2 (proj2 (proj2 (proj2 (proj2
           select_total_with_idle_fallback)))) "sleepy").
  compute_done.
Defined.

Lemma built_in_behaviors_ignore_perception_at_playful :
  ∃ (behavior : Behavior) (fixed : string),
    dot_processes !! "playful" = Some behavior
    ∧ ∀ (W : Type) (soul : Soul W) (p1 p2 : Perception) (w : W),
        run soul (behavior p1) w = run soul (behavior p2) w
        ∧ invocations Think (run soul (behavior p1) w).1.2 = [fixed]
        ∧ (run soul (behavior p1) w).2 = Thought <$> (think soul fixed w).2.
Proof.
  apply (built_in_behaviors_ignore_perception "playful"). compute_done.
Defined.

(** * Further properties of the handlers *)

(** ** The four branches of the switch, exhaustively *)

Lemma onPerception_cases (p : Perception) :
  (type p = "user_message" ∧ onPerception p = soul_speak (content p))
  ∨ (type p = "self_reflection" ∧ onPerception p = soul_think (content p))
  ∨ (type p = "experience"
     ∧ onPerception p
       = soul_remember (content p) ≫= λ _, soul_think acknowledgment)
  ∨ ((type p ≠ "user_message" ∧ type p ≠ "self_reflection"
      ∧ type p ≠ "experience")
     ∧ onPerception p = soul_observe (content p)).
Proof.
  destruct (decide (type p = "user_message")) as [Hu|Hu];
    [left; eauto using route_user_message|].
  destruct (decide (type p = "self_reflection")) as [Hs|Hs];
    [right; left; eauto using route_self_reflection|].
  destruct (decide (type p = "experience")) as [He|He];
    [right; right; left; eauto using route_experience|].
  right; right; right. split; [done|]. apply route_default.
  rewrite !not_elem_of_cons. repeat split; [done..|apply not_elem_of_nil].
Qed.

(** Split on the branch taken, rewrite the handler to that branch and run
    it, splitting on how each call settles. *)
Ltac run_branch soul p w :=
  destruct (onPerception_cases p)
    as [[Htype ->]|[[Htype ->]|[[Htype ->]|[(Hu & Hs & He) ->]]]];
  simpl;
  repeat match goal with
  | |- context [speak soul ?a ?v] =>
      destruct (speak soul a v) as [? [?|?]] eqn:?; simpl
  | |- context [think soul ?a ?v] =>
      destruct (think soul a v) as [? [?|?]] eqn:?; simpl
  | |- context [remember soul ?a ?v] =>
      destruct (remember soul a v) as [? [?|?]] eqn:?; simpl
  | |- context [observe soul ?a ?v] =>
      destruct (observe soul a v) as [? [?|?]] eqn:?; simpl
  end.

Ltac by_branch soul p w :=
  run_branch soul p w;
  try match goal with H : type p = _ |- _ => rewrite H end;
  repeat case_decide; try done.

Section CallTable.
Context {W : Type} (soul : Soul W).

(** X1. Whatever the soul answers, [remember] is called for [experience]
    perceptions only: once, with the content unchanged, and never for any
    other type. *)
Theorem remember_only_for_experience (p : Perception) (w : W) :
  invocations Remember (run soul (onPerception p) w).1.2
  = if decide (type p = "experience") then [content p] else [].
Proof. by_branch soul p w. Qed.

(** X2. Whatever the soul answers, [speak] is called for [user_message]
    perceptions only: once, with the content unchanged, and never for any
    other type. *)
Theorem speak_only_for_user_message (p : Perception) (w : W) :
  invocations Speak (run soul (onPerception p) w).1.2
  = if decide (type p = "user_message") then [content p] else [].
Proof. by_branch soul p w. Qed.

(** X3. Whatever the soul answers, [observe] is called exactly when the
    type is none of the three known tags: once, with the content
    unchanged. *)
Theorem observe_only_for_unknown_type (p : Perception) (w : W) :
  invocations Observe (run soul (onPerception p) w).1.2
  = if decide (type p ∈ ["user_message"; "self_reflection"; "experience"])
    then [] else [content p].
Proof.
  run_branch soul p w.
  all: first
    [ rewrite decide_True
        by (rewrite Htype;
            repeat first [apply list_elem_of_here | apply list_elem_of_further])
    | rewrite decide_False
        by (rewrite !not_elem_of_cons;
            repeat split; [done..|apply not_elem_of_nil]) ].
  all: done.
Qed.

End CallTable.

(** ** What one perception costs and what reaches the soul *)

Section Calls_per_perception.
Context {W : Type} (soul : Soul W).

(** X4. One perception costs at most one call to the generation backend
    ([speak], [think] or [observe]): exactly one, except for an
    [experience] whose append was rejected, which costs none. *)
Theorem one_generation_call_per_perception (p : Perception) (w : W) :
  generation_calls (run soul (onPerception p) w).1.2
  = if decide (type p = "experience"
               ∧ fulfilled (remember soul (content p) w).2 = false)
    then 0 else 1.
Proof.
  unfold generation_calls. run_branch soul p w.
  all: try match goal with H : remember _ _ _ = _ |- _ => rewrite H end.
  all: simpl; case_decide as Hd; try done.
  all: first [ destruct Hd as [Ht Hf]; congruence | by destruct Hd ].
Qed.

(** X5. The soul is handed the perception's content first and unchanged,
    and after it only the fixed acknowledgment, which follows exactly when
    the perception is an [experience] whose append was fulfilled; the type
    tag itself is never passed on. *)
Theorem arguments_are_content_then_acknowledgment (p : Perception) (w : W) :
  arguments (run soul (onPerception p) w).1.2
  = if decide (type p = "experience"
               ∧ fulfilled (remember soul (content p) w).2 = true)
    then [content p; "I'll remember this..."] else [content p].
Proof.
  run_branch soul p w.
  all: try match goal with H : remember _ _ _ = _ |- _ => rewrite H end.
  all: simpl; case_decide as Hd; try done.
  all: first [ destruct Hd as [Ht Hf]; congruence | by destruct Hd ].
Qed.

End Calls_per_perception.

(** ** Errors *)

Section Errors.
Context {W : Type} (soul : Soul W).

(** X6. The handler's error is the error of the very call it made, in the
    state it made it: [speak] on the content for a [user_message], [think]
    on the content for a [self_reflection], [observe] on the content for an
    unknown type; for an [experience] the error of [remember], or, once
    the append is fulfilled, the error of [think] on the acknowledgment in
    the state the append left.  The handler rejects in no other case and
    with no other error. *)
Theorem handler_error_is_the_call_error (p : Perception) (w : W) :
  error_of (run soul (onPerception p) w).2
  = if decide (type p = "user_message") then
      error_of (speak soul (content p) w).2
    else if decide (type p = "self_reflection") then
      error_of (think soul (content p) w).2
    else if decide (type p = "experience") then
      match remember soul (content p) w with
      | (w1, Fulfilled _) => error_of (think soul acknowledgment w1).2
      | (_, Rejected e) => Some e
      end
    else error_of (observe soul (content p) w).2.
Proof.
  destruct (onPerception_cases p)
    as [[Htype ->]|[[Htype ->]|[[Htype ->]|[(Hu & Hs & He) ->]]]]; simpl.
  - rewrite decide_True by done.
    by destruct (speak soul (content p) w) as [? [?|?]].
  - rewrite decide_False, decide_True by (by rewrite ?Htype).
    by destruct (think soul (content p) w) as [? [?|?]].
  - rewrite !decide_False, decide_True by (by rewrite ?Htype).
    destruct (remember soul (content p) w) as [w1 [[]|e]]; simpl; [|done].
    by destruct (think soul acknowledgment w1) as [? [?|?]].
  - rewrite !decide_False by done.
    by destruct (observe soul (content p) w) as [? [?|?]].
Qed.

(** X8. The tag of a fulfilled result tells the branch taken: [Spoken]
    comes from a [user_message] only, [Observed] from an unknown type only,
    and a [Thought] from a [self_reflection] or an [experience]. *)
Theorem result_tag_reveals_type (p : Perception) (w : W) (text : string) :
  ((run soul (onPerception p) w).2 = Fulfilled (Spoken text) →
     type p = "user_message")
  ∧ ((run soul (onPerception p) w).2 = Fulfilled (Thought text) →
       type p = "self_reflection" ∨ type p = "experience")
  ∧ ((run soul (onPerception p) w).2 = Fulfilled (Observed text) →
       type p ∉ ["user_message"; "self_reflection"; "experience"]).
Proof.
  run_branch soul p w.
  all: repeat split; intros Hres; try done; auto.
  all: rewrite !not_elem_of_cons; repeat split; [done..|apply not_elem_of_nil].
Qed.

(** X10. Two perceptions of unknown type with the same content are handled
    alike, whatever their tags: same calls, same state, same result. *)
Theorem unknown_types_handled_alike (p1 p2 : Perception) (w : W) :
  type p1 ∉ ["user_message"; "self_reflection"; "experience"] →
  type p2 ∉ ["user_message"; "self_reflection"; "experience"] →
  content p1 = content p2 →
  run soul (onPerception p1) w = run soul (onPerception p2) w.
Proof.
  intros Hp1 Hp2 Hcontent.
  by rewrite (route_default p1 Hp1), (route_default p2 Hp2), Hcontent.
Qed.

End Errors.

(** ** The store after one perception *)

(** X7. Behind the handler the store changes in one way only: an
    [experience] reaching a writable store appends one record (its content,
    the instant of the call, Dot as owner) at the end of the log, and the
    record stays even when the acknowledgment fails; every other perception,
    and an [experience] on a store that cannot write, leaves the store as
    it was.  So the old log is always a prefix of the new one. *)
Theorem store_after_perception
    (backend : Capability → string → Outcome string) (p : Perception)
    (st : Store) :
  (run (store_soul backend) (onPerception p) st).1.1
  = (if decide (type p = "experience" ∧ writable st = true)
     then {| log := log st
                    ++ [ {| record_content := content p; timestamp := now st;
                            ownerIdentity := dot |} ];
             now := now st; writable := writable st |}
     else st)
  ∧ log st `prefix_of` log (run (store_soul backend) (onPerception p) st).1.1.
Proof.
  destruct (onPerception_cases p)
    as [[Htype ->]|[[Htype ->]|[[Htype ->]|[(Hu & Hs & He) ->]]]]; simpl.
  - destruct (backend Speak (content p)); simpl;
      by rewrite decide_False by (intros [? _]; congruence).
  - destruct (backend Think (content p)); simpl;
      by rewrite decide_False by (intros [? _]; congruence).
  - unfold append. destruct (writable st) eqn:Hw; simpl.
    + rewrite decide_True by done.
      destruct (backend Think acknowledgment); simpl;
        (split; [done|by apply prefix_app_r]).
    + by rewrite decide_False by (by intros [_ ?]).
  - destruct (backend Observe (content p)); simpl;
      by rewrite decide_False by (intros [? _]; congruence).
Qed.

(** ** The registered mental processes *)

(** The registry holds [process] under the mode at hand; run it. *)
Ltac only_think process :=
  match goal with
  | Hreg : _ = Some ?b |- _ =>
      replace b with process
        by (change (Some process = Some b) in Hreg; congruence)
  end;
  simpl;
  match goal with
  | |- context [think ?soul ?text ?w] =>
      destruct (think soul text w) as [? [?|?]]
  end.

(** X9. Whatever is registered under a mode calls [think] once and nothing
    else: a mental process never speaks, never observes and never writes to
    memory, and its result is never [Spoken] nor [Observed]. *)
Theorem registered_processes_only_think (mode : string)
    (behavior : Behavior) :
  dot_processes !! mode = Some behavior →
  ∀ (W : Type) (soul : Soul W) (p : Perception) (w : W),
    length (invocations Think (run soul (behavior p) w).1.2) = 1
    ∧ invocations Speak (run soul (behavior p) w).1.2 = []
    ∧ invocations Remember (run soul (behavior p) w).1.2 = []
    ∧ invocations Observe (run soul (behavior p) w).1.2 = []
    ∧ (∀ text, (run soul (behavior p) w).2 ≠ Fulfilled (Spoken text))
    ∧ (∀ text, (run soul (behavior p) w).2 ≠ Fulfilled (Observed text)).
Proof.
  intros Hreg W soul p w.
  destruct (decide (mode ∈ built_in_modes)) as [Hin|Hout].
  - unfold built_in_modes in Hin.
    repeat (apply elem_of_cons in Hin as [->|Hin]);
      [..|by apply elem_of_nil in Hin].
    + by only_think idle.
    + by only_think curious.
    + by only_think empathetic.
    + by only_think playful.
  - by rewrite (select_unknown mode Hout) in Hreg.
Qed.

(** ** The further properties at the sample inputs *)

Lemma unknown_types_handled_alike_at_rain :
  run stub_soul (onPerception weather) (fresh 0)
  = run stub_soul (onPerception {| content := "rain"; type := "" |}) (fresh 0).
Proof.
  apply (unknown_types_handled_alike stub_soul weather
           {| content := "rain"; type := "" |} (fresh 0));
    [compute_done | compute_done | reflexivity].
Defined.

Lemma registered_processes_only_think_at_curious :
  length (invocations Think
            (run stub_soul (curious new_friend) (fresh 0)).1.2) = 1
  ∧ invocations Speak (run stub_soul (curious new_friend) (fresh 0)).1.2 = []
  ∧ invocations Remember
      (run stub_soul (curious new_friend) (fresh 0)).1.2 = []
  ∧ invocations Observe
      (run stub_soul (curious new_friend) (fresh 0)).1.2 = []
  ∧ (∀ text, (run stub_soul (curious new_friend) (fresh 0)).2
             ≠ Fulfilled (Spoken text))
  ∧ (∀ text, (run stub_soul (curious new_friend) (fresh 0)).2
             ≠ Fulfilled (Observed text)).
Proof.
  apply (registered_processes_only_think "curious" curious eq_refl
           Store stub_soul new_friend (fresh 0)).
Defined.
